(** * taxu-js: the Taxu API client

    A shallow embedding of [src/index.ts] (the [TaxuClient] class, its
    private [handleError] and the [createTaxuClient] helper) together with
    the part of JavaScript and of the axios transport the client relies on,
    followed by the properties of the client's request/response contract and
    of its error normalisation. *)

From Stdlib Require Import ZArith List String Ascii Bool Lia DecimalString.
Import ListNotations.
Local Open Scope string_scope.
Set Warnings "-register-all".

(** ** JavaScript values *)

(** A JS number (a double).  [Int z] is the number the integer literal [z]
    denotes: [z] itself up to 2^53, the double nearest to [z] beyond (the
    infinity of its sign from 2^1024 on).  Numbers with a fractional part
    are not modelled; [NaN] is kept apart because it is falsy. *)
Inductive Number : Type :=
| Int (z : Z)
| NaN.

(** The values a decoded JSON body, a thrown error or a request payload can
    be.  An object is the list of its own properties, the first binding of
    a key being the one in effect.  Functions and symbols are left out. *)
Inductive JsVal : Type :=
| JUndefined
| JNull
| JBool (b : bool)
| JNum (n : Number)
| JStr (s : string)
| JArr (items : list JsVal)
| JObj (fields : list (string * JsVal)).

(** What the client can throw or reject with: [new Error(message)], or the
    [TypeError] the engine raises on a property read of [undefined] or
    [null] and on a failed string conversion. *)
Inductive JsError : Type :=
| Error (message : string)
| TypeError.

(** Result of evaluating an expression that may throw. *)
Inductive Completion (A : Type) : Type :=
| Return (a : A)
| Throw (e : JsError).
Arguments Return {A} a.
Arguments Throw {A} e.

Definition cbind {A B} (c : Completion A) (k : A -> Completion B) : Completion B :=
  match c with
  | Return a => k a
  | Throw e => Throw e
  end.

Notation "x <- c ;; k" := (cbind c (fun x => k))
  (at level 61, c at next level, right associativity).

(** *** Truthiness ([ToBoolean]) *)

Class Truthy (A : Type) := truthy : A -> bool.

#[export] Instance Truthy_string : Truthy string :=
  fun s => match s with EmptyString => false | String _ _ => true end.

#[export] Instance Truthy_Number : Truthy Number :=
  fun n => match n with Int z => negb (z =? 0)%Z | NaN => false end.

#[export] Instance Truthy_JsVal : Truthy JsVal :=
  fun v =>
    match v with
    | JUndefined | JNull => false
    | JBool b => b
    | JNum n => truthy n
    | JStr s => truthy s
    | JArr _ | JObj _ => true
    end.

(** [x || d] where [x] is an optional field of a typed object: an absent
    field reads as [undefined]. *)
Definition or_else {A} `{Truthy A} (x : option A) (d : A) : A :=
  match x with
  | Some a => if truthy a then a else d
  | None => d
  end.

(** *** Property reads *)

Fixpoint own (key : string) (fields : list (string * JsVal)) : option JsVal :=
  match fields with
  | [] => None
  | (k, v) :: rest => if String.eqb k key then Some v else own key rest
  end.

(** [v.key].  Only own properties are modelled: nothing the client reads
    ([response], [request], [message], [data], [status]) is supplied by a
    built-in prototype, so a primitive or an array answers [undefined]. *)
Definition get_prop (v : JsVal) (key : string) : Completion JsVal :=
  match v with
  | JUndefined | JNull => Throw TypeError
  | JObj fields =>
      match own key fields with
      | Some x => Return x
      | None => Return JUndefined
      end
  | _ => Return JUndefined
  end.

(** [v?.key] *)
Definition get_prop_opt (v : JsVal) (key : string) : Completion JsVal :=
  match v with
  | JUndefined | JNull => Return JUndefined
  | _ => get_prop v key
  end.

(** *** String conversion ([ToString]) *)

Definition decimal (z : Z) : string := NilZero.string_of_int (Z.to_int z).

(** The double nearest to the integer [a > 0], ties going to the even
    significand; [None] when it is beyond the largest finite double. *)
Definition nearest_double (a : Z) : option Z :=
  let bits := (Z.log2 a + 1)%Z in
  if (bits <=? 53)%Z then Some a
  else
    let shift := (bits - 53)%Z in
    let q := Z.shiftr a shift in
    let rest := (a - Z.shiftl q shift)%Z in
    let half := Z.shiftl 1 (shift - 1) in
    let q' := if ((half <? rest)%Z || ((rest =? half)%Z && Z.odd q))%bool
              then (q + 1)%Z else q in
    let v := Z.shiftl q' shift in
    if (v <? 2 ^ 1024)%Z then Some v else None.

Definition rounds_to (v w : Z) : bool :=
  match nearest_double w with
  | Some v' => (v' =? v)%Z
  | None => false
  end.

(** The integer with the fewest significant digits that still denotes the
    double [v], the nearest to [v] among those and the even one on a tie:
    [k], [k + 1], ... significant digits are tried in turn, 17 being enough
    for every double. *)
Fixpoint shortest (v digits : Z) (fuel : nat) (k : Z) : Z :=
  match fuel with
  | O => v
  | S fuel' =>
      let p := (10 ^ Z.max (digits - k) 0)%Z in
      let s := (v / p)%Z in
      let lo := (s * p)%Z in
      let hi := ((s + 1) * p)%Z in
      match rounds_to v lo, rounds_to v hi with
      | true, true =>
          if (v - lo <? hi - v)%Z then lo
          else if (hi - v <? v - lo)%Z then hi
          else if Z.even s then lo else hi
      | true, false => lo
      | false, true => hi
      | false, false => shortest v digits fuel' (k + 1)%Z
      end
  end.

Fixpoint strip_zeros (fuel : nat) (w : Z) : Z :=
  match fuel with
  | O => w
  | S fuel' => if (w mod 10 =? 0)%Z then strip_zeros fuel' (w / 10)%Z else w
  end.

(** The text of a positive integer given in its shortest digits: plain
    digits up to 21 of them, the exponent form beyond. *)
Definition format (w : Z) : string :=
  let text := decimal w in
  let n := String.length text in
  if (n <=? 21)%nat then text
  else
    let significant := decimal (strip_zeros n w) in
    let exponent := decimal (Z.of_nat n - 1) in
    match significant with
    | String c EmptyString => String c ("e+" ++ exponent)
    | String c more => String c ("." ++ more ++ "e+" ++ exponent)
    | EmptyString => text
    end.

(** Up to 2^53 every integer is a double and its digits are its shortest
    digits. *)
Definition magnitude_toString (a : Z) : string :=
  if (a <=? 2 ^ 53)%Z then decimal a
  else
    match nearest_double a with
    | None => "Infinity"
    | Some v => format (shortest v (Z.of_nat (String.length (decimal v))) 17 1)
    end.

(** [Number::toString] in radix 10. *)
Definition Number_toString (n : Number) : string :=
  match n with
  | Int z =>
      if (z <? 0)%Z then "-" ++ magnitude_toString (- z)
      else magnitude_toString z
  | NaN => "NaN"
  end.

(** A plain object prints as ["[object Object]"] through
    [Object.prototype.toString]; an own [toString] property shadows it and,
    not being callable, makes the conversion fail.  An array joins its
    elements with commas, [undefined] and [null] printing as nothing. *)
Fixpoint ToString (v : JsVal) : Completion string :=
  match v with
  | JUndefined => Return "undefined"
  | JNull => Return "null"
  | JBool true => Return "true"
  | JBool false => Return "false"
  | JNum n => Return (Number_toString n)
  | JStr s => Return s
  | JArr items =>
      (fix join (l : list JsVal) : Completion string :=
         match l with
         | [] => Return ""
         | x :: rest =>
             cbind (match x with
                    | JUndefined | JNull => Return ""
                    | _ => ToString x
                    end)
               (fun s =>
                  match rest with
                  | [] => Return s
                  | _ :: _ => cbind (join rest) (fun r => Return (s ++ "," ++ r))
                  end)
         end) items
  | JObj fields =>
      match own "toString" fields with
      | Some _ => Throw TypeError
      | None => Return "[object Object]"
      end
  end.

(** [new Error(message)]: the message is converted to a string unless it is
    [undefined], in which case the error has the empty message. *)
Definition new_Error (message : JsVal) : Completion JsError :=
  match message with
  | JUndefined => Return (Error "")
  | _ => cbind (ToString message) (fun s => Return (Error s))
  end.

Definition is_upper (c : ascii) : bool :=
  (("A"%char <=? c)%char && (c <=? "Z"%char)%char)%bool.

(** [String.prototype.toLowerCase] on ASCII text. *)
Fixpoint toLowerCase (s : string) : string :=
  match s with
  | EmptyString => EmptyString
  | String c rest =>
      String (if is_upper c then ascii_of_nat (nat_of_ascii c + 32) else c)
        (toLowerCase rest)
  end.

(** ** The axios transport

    axios is an external package; what is modelled is the part of its
    documented behaviour the client goes through: one configuration type
    for instance defaults and per-request settings, their merge, the
    [get]/[post] aliases of [request], and the settling of a reply by its
    status.  The adapter, which performs the exchange with the server, is a
    parameter. *)

Inductive Settled (E A : Type) : Type :=
| Fulfilled (a : A)
| Rejected (e : E).
Arguments Fulfilled {E A} a.
Arguments Rejected {E A} e.

Module Axios.

Definition Headers := list (string * string).

Record AxiosRequestConfig : Type := {
  url : option string;
  method : option string;
  baseURL : option string;
  headers : Headers;
  params : JsVal;
  data : JsVal;
  timeout : option Number
}.

Module Response.
(** [AxiosResponse], restricted to the fields the client or its error
    handler can observe. *)
Record t : Type := {
  data : JsVal;
  status : Z;
  request : JsVal
}.
End Response.

(** What an adapter settles with: a reply of the server, whatever its
    status, or a failure value (an error with or without the request it
    belongs to, or anything else that was thrown). *)
Inductive AdapterResult : Type :=
| Reply (r : Response.t)
| Failure (error : JsVal).

Record AxiosInstance : Type := { defaults : AxiosRequestConfig }.

Definition is_set (k : string) (h : Headers) : bool :=
  existsb (fun kv => String.eqb (fst kv) k) h.

(** Headers of the second configuration win over those of the first. *)
Definition merge_headers (h1 h2 : Headers) : Headers :=
  (h2 ++ filter (fun kv => negb (is_set (fst kv) h2)) h1)%list.

Definition second_if_defined {A} (a1 a2 : option A) : option A :=
  match a2 with
  | Some _ => a2
  | None => a1
  end.

(** [mergeConfig(config1, config2)]: [url], [method] and [data] are taken
    from the second configuration only, the other settings from the
    second when it defines them. *)
Definition mergeConfig (config1 config2 : AxiosRequestConfig) : AxiosRequestConfig :=
  {| url := url config2;
     method := method config2;
     baseURL := second_if_defined (baseURL config1) (baseURL config2);
     headers := merge_headers (headers config1) (headers config2);
     params := match params config2 with
               | JUndefined => params config1
               | p => p
               end;
     data := data config2;
     timeout := second_if_defined (timeout config1) (timeout config2) |}.

(** The defaults of the package itself, for the settings modelled: the
    [Accept] header sent with every request, and no timeout. *)
Definition package_defaults : AxiosRequestConfig :=
  {| url := None;
     method := None;
     baseURL := None;
     headers := [("Accept", "application/json, text/plain, */*")];
     params := JUndefined;
     data := JUndefined;
     timeout := Some (Int 0) |}.

(** [axios.create(config)]: the given configuration on top of the
    package's defaults. *)
Definition create (config : AxiosRequestConfig) : AxiosInstance :=
  {| defaults := mergeConfig package_defaults config |}.

(** The default [validateStatus]. *)
Definition validateStatus (status : Z) : bool :=
  ((200 <=? status) && (status <? 300))%Z.

Definition response_object (r : Response.t) : JsVal :=
  JObj [("data", Response.data r);
        ("status", JNum (Int (Response.status r)));
        ("request", Response.request r)].

(** The error a reply outside the accepted range is turned into. *)
Definition status_error (r : Response.t) : JsVal :=
  JObj [("message",
         JStr ("Request failed with status code "
               ++ Number_toString (Int (Response.status r))));
        ("name", JStr "AxiosError");
        ("request", Response.request r);
        ("response", response_object r)].

(** [settle]: a reply is accepted when it has no status or when
    [validateStatus] accepts the status. *)
Definition settle (r : Response.t) : Settled JsVal Response.t :=
  if ((Response.status r =? 0)%Z || validateStatus (Response.status r))%bool
  then Fulfilled r
  else Rejected (status_error r).

(** A promise of the transport, with the requests handed to the adapter
    on the way. *)
Definition Promise (E A : Type) : Type :=
  (list AxiosRequestConfig * Settled E A)%type.

Section Transport.

Variable adapter : AxiosRequestConfig -> AdapterResult.

(** [instance.request(config)] *)
Definition request (instance : AxiosInstance) (config : AxiosRequestConfig)
  : Promise JsVal Response.t :=
  let merged := mergeConfig (defaults instance) config in
  let sent :=
    {| url := url merged;
       method := Some (toLowerCase
                         (or_else (method merged)
                            (or_else (method (defaults instance)) "get")));
       baseURL := baseURL merged;
       headers := headers merged;
       params := params merged;
       data := data merged;
       timeout := timeout merged |} in
  ([sent],
   match adapter sent with
   | Reply r => settle r
   | Failure error => Rejected error
   end).

(** [instance.get(url)] *)
Definition get (instance : AxiosInstance) (u : string)
  : Promise JsVal Response.t :=
  request instance
    {| url := Some u; method := Some "get"; baseURL := None;
       headers := []; params := JUndefined; data := JUndefined;
       timeout := None |}.

(** [instance.post(url, data)] *)
Definition post (instance : AxiosInstance) (u : string) (d : JsVal)
  : Promise JsVal Response.t :=
  request instance
    {| url := Some u; method := Some "post"; baseURL := None;
       headers := []; params := JUndefined; data := d;
       timeout := None |}.

End Transport.

End Axios.

(** ** Asynchronous functions *)

Definition resolve {E A} (a : A) : Axios.Promise E A := ([], Fulfilled a).

Definition reject {E A} (e : E) : Axios.Promise E A := ([], Rejected e).

(** [const x = await p; k x] *)
Definition await {E A B} (p : Axios.Promise E A) (k : A -> Axios.Promise E B)
  : Axios.Promise E B :=
  match p with
  | (h, Fulfilled a) => let (h', s) := k a in ((h ++ h')%list, s)
  | (h, Rejected e) => (h, Rejected e)
  end.

(** [try { p } catch (error) { handler error }] *)
Definition try_catch {E E' A} (p : Axios.Promise E A)
  (handler : E -> Axios.Promise E' A) : Axios.Promise E' A :=
  match p with
  | (h, Fulfilled a) => (h, Fulfilled a)
  | (h, Rejected e) => let (h', s) := handler e in ((h ++ h')%list, s)
  end.

(** [throw c], where evaluating [c] may itself throw. *)
Definition throw {A} (c : Completion JsError) : Axios.Promise JsError A :=
  match c with
  | Return e => reject e
  | Throw e => reject e
  end.

(** ** The client ([src/index.ts]) *)

Module Config.
(** [interface TaxuConfig]: [baseURL] and [timeout] are optional. *)
Record TaxuConfig : Type := {
  apiKey : string;
  baseURL : option string;
  timeout : option Number
}.
End Config.

Record TaxuClient : Type := {
  client : Axios.AxiosInstance;
  apiKey : string
}.

(** The [method] literals accepted by [request]. *)
Inductive Method : Type := GET | POST | PUT | DELETE | PATCH.

Definition Method_text (m : Method) : string :=
  match m with
  | GET => "GET"
  | POST => "POST"
  | PUT => "PUT"
  | DELETE => "DELETE"
  | PATCH => "PATCH"
  end.

(** The [options] argument of [request]; an absent [data] or [params] reads
    as [undefined]. *)
Record RequestOptions : Type := {
  method : option Method;
  data : JsVal;
  params : JsVal
}.

Definition constructor (config : Config.TaxuConfig) : TaxuClient :=
  let this_apiKey := Config.apiKey config in
  {| apiKey := this_apiKey;
     client :=
       Axios.create
         {| Axios.url := None;
            Axios.method := None;
            Axios.baseURL :=
              Some (or_else (Config.baseURL config) "https://api.taxu.io/v1");
            Axios.timeout :=
              Some (or_else (Config.timeout config) (Int 10000));
            Axios.headers :=
              [("Authorization", "Bearer " ++ this_apiKey);
               ("Content-Type", "application/json");
               ("User-Agent", "taxu-js/0.1.0")];
            Axios.params := JUndefined;
            Axios.data := JUndefined |} |}.

Definition createTaxuClient (apiKeyOrConfig : string + Config.TaxuConfig)
  : TaxuClient :=
  match apiKeyOrConfig with
  | inl key =>
      constructor
        {| Config.apiKey := key; Config.baseURL := None; Config.timeout := None |}
  | inr config => constructor config
  end.

Definition handleError (error : JsVal) : Completion JsError :=
  response <- get_prop error "response" ;;
  if truthy response then
    body <- get_prop response "data" ;;
    field <- get_prop_opt body "message" ;;
    message <- (if truthy field then Return field
                else status <- get_prop response "status" ;;
                     text <- ToString status ;;
                     Return (JStr ("API Error: " ++ text))) ;;
    new_Error message
  else
    request <- get_prop error "request" ;;
    if truthy request then
      new_Error (JStr "Network error: Unable to reach Taxu API")
    else
      message <- get_prop error "message" ;;
      text <- ToString message ;;
      new_Error (JStr ("Request error: " ++ text)).

Section Client.

Variable adapter : Axios.AxiosRequestConfig -> Axios.AdapterResult.

Definition calculateTax (this : TaxuClient) (request : JsVal)
  : Axios.Promise JsError JsVal :=
  try_catch
    (await (Axios.post adapter (client this) "/tax/calculate" request)
       (fun response => resolve (Axios.Response.data response)))
    (fun error => throw (handleError error)).

Definition getJurisdictions (this : TaxuClient) : Axios.Promise JsError JsVal :=
  try_catch
    (await (Axios.get adapter (client this) "/jurisdictions")
       (fun response => resolve (Axios.Response.data response)))
    (fun error => throw (handleError error)).

Definition ping (this : TaxuClient) : Axios.Promise JsError JsVal :=
  try_catch
    (await (Axios.get adapter (client this) "/ping")
       (fun response => resolve (Axios.Response.data response)))
    (fun error => throw (handleError error)).

Definition request (this : TaxuClient) (endpoint : string)
  (options : option RequestOptions) : Axios.Promise JsError JsVal :=
  try_catch
    (let opts := match options with
                 | Some o => o
                 | None => {| method := None; data := JUndefined;
                              params := JUndefined |}
                 end in
     let method_ := match method opts with
                    | Some m => m
                    | None => GET
                    end in
     await (Axios.request adapter (client this)
              {| Axios.url := Some endpoint;
                 Axios.method := Some (toLowerCase (Method_text method_));
                 Axios.baseURL := None;
                 Axios.headers := [];
                 Axios.params := params opts;
                 Axios.data := data opts;
                 Axios.timeout := None |})
       (fun response => resolve (Axios.Response.data response)))
    (fun error => throw (handleError error)).

(** The public interface as one type: a call of one of the four methods
    with its arguments. *)
Inductive Call : Type :=
| CalculateTax (request : JsVal)
| GetJurisdictions
| Ping
| Request (endpoint : string) (options : option RequestOptions).

Definition invoke (this : TaxuClient) (c : Call) : Axios.Promise JsError JsVal :=
  match c with
  | CalculateTax r => calculateTax this r
  | GetJurisdictions => getJurisdictions this
  | Ping => ping this
  | Request endpoint options => request this endpoint options
  end.

End Client.

(** Requests handed to the adapter, and how the call settled. *)
Definition history {E A} (p : Axios.Promise E A) : list Axios.AxiosRequestConfig :=
  fst p.

Definition outcome {E A} (p : Axios.Promise E A) : Settled E A := snd p.

Definition header (k : string) (config : Axios.AxiosRequestConfig) : option string :=
  option_map snd
    (find (fun kv => String.eqb (fst kv) k) (Axios.headers config)).

(** How a settled transport promise is turned into the method's result. *)
Definition finish (s : Settled JsVal Axios.Response.t) : Settled JsError JsVal :=
  match s with
  | Fulfilled response => Fulfilled (Axios.Response.data response)
  | Rejected error => outcome (@throw JsVal (handleError error))
  end.

(** *** Construction as a caller reaches it

    The interface types promise an argument, but a caller written in
    JavaScript can pass none: [None] stands for [undefined] or [null].
    The constructor starts by reading [config.apiKey], which throws on
    such a value; nothing after that read can throw. *)
Definition new_TaxuClient (config : option Config.TaxuConfig)
  : Completion TaxuClient :=
  match config with
  | None => Throw TypeError
  | Some config' => Return (constructor config')
  end.

(** [createTaxuClient(apiKeyOrConfig)]: the [typeof] test sends a string
    to the constructor wrapped as [{ apiKey }] and anything else as it
    is. *)
Definition createTaxuClient_call
    (apiKeyOrConfig : option (string + Config.TaxuConfig))
  : Completion TaxuClient :=
  match apiKeyOrConfig with
  | Some (inl key) =>
      new_TaxuClient
        (Some {| Config.apiKey := key; Config.baseURL := None;
                 Config.timeout := None |})
  | Some (inr config) => new_TaxuClient (Some config)
  | None => new_TaxuClient None
  end.

(** ** Sample inputs *)

Definition sample_client : TaxuClient := createTaxuClient (inl "test-api-key-123").

Definition response_with (status : Z) (body : JsVal) : Axios.Response.t :=
  {| Axios.Response.data := body;
     Axios.Response.status := status;
     Axios.Response.request := JObj [("path", JStr "/")] |}.

Definition reply_with (status : Z) (body : JsVal) : Axios.AdapterResult :=
  Axios.Reply (response_with status body).

Definition jurisdictions_body : JsVal :=
  JObj [("data", JArr [JStr "US"; JStr "CA"; JStr "GB"]); ("success", JBool true)].

Definition invalid_params_body : JsVal :=
  JObj [("message", JStr "Invalid request parameters");
        ("code", JStr "INVALID_PARAMS")].

Definition empty_message_body : JsVal :=
  JObj [("message", JStr ""); ("code", JStr "INVALID_PARAMS")].

(** A connection-level failure as the HTTP adapters report it: the error
    carries the request and no response. *)
Definition unreachable_error : JsVal :=
  JObj [("message", JStr "Network Error");
        ("name", JStr "AxiosError");
        ("code", JStr "ERR_NETWORK");
        ("request", JObj [("path", JStr "/")])].

(** An error thrown while the request was being set up. *)
Definition setup_error : JsVal :=
  JObj [("message", JStr "Custom request error")].

(** Adapters that answer every request the same way. *)
Definition always_reply (status : Z) (body : JsVal)
  : Axios.AxiosRequestConfig -> Axios.AdapterResult :=
  fun _ => reply_with status body.

Definition always_fail (error : JsVal)
  : Axios.AxiosRequestConfig -> Axios.AdapterResult :=
  fun _ => Axios.Failure error.

Definition custom_config : Config.TaxuConfig :=
  {| Config.apiKey := "test-api-key-custom";
     Config.baseURL := Some "https://custom.api.taxu.io/v2";
     Config.timeout := Some (Int 15000) |}.

Definition zero_timeout_config : Config.TaxuConfig :=
  {| Config.apiKey := "test-api-key-custom";
     Config.baseURL := Some "https://custom.api.taxu.io/v2";
     Config.timeout := Some (Int 0) |}.

(** The JSON scalars, [undefined] included: every value but an array or
    an object. *)
Definition is_scalar (v : JsVal) : bool :=
  match v with
  | JArr _ | JObj _ => false
  | _ => true
  end.

(** ** Properties *)

(** *** The JavaScript layer *)

Lemma get_prop_opt_returns (v : JsVal) (key : string) :
  exists x, get_prop_opt v key = Return x.
Proof.
  destruct v as [| | b | n | s | items | fields]; simpl;
    try (eexists; reflexivity).
  destruct (own key fields); eexists; reflexivity.
Qed.

Lemma get_prop_opt_own (fields : list (string * JsVal)) (key : string) (v : JsVal) :
  own key fields = Some v -> get_prop_opt (JObj fields) key = Return v.
Proof. intros H. simpl. now rewrite H. Qed.

Lemma new_Error_truthy (v : JsVal) :
  truthy v = true ->
  new_Error v = (s <- ToString v ;; Return (Error s)).
Proof. destruct v; simpl; intros H; try discriminate H; reflexivity. Qed.

Lemma truthy_string_nonempty (s : string) : s <> "" -> truthy (JStr s) = true.
Proof. destruct s; [intros H; now elim H | reflexivity]. Qed.

Lemma truthy_Number_spec (n : Number) :
  n <> Int 0 -> n <> NaN -> truthy n = true.
Proof.
  destruct n as [z |]; intros H0 Hn; [| now elim Hn].
  unfold truthy, Truthy_Number. destruct (Z.eqb_spec z 0); [subst; now elim H0 | reflexivity].
Qed.

Example toLowerCase_PATCH : toLowerCase "PATCH" = "patch".
Proof. reflexivity. Qed.

Example ToString_status : ToString (JNum (Int 500)) = Return "500".
Proof. reflexivity. Qed.

(** From 10^21 on a number prints in exponent form, and beyond 2^53 with
    the shortest digits that denote the same double. *)
Example Number_toString_1e21 : Number_toString (Int (10 ^ 21)) = "1e+21".
Proof. vm_compute. reflexivity. Qed.

Example Number_toString_below_1e21 :
  Number_toString (Int (10 ^ 21 - 1)) = "1e+21"
  /\ Number_toString (Int (10 ^ 20)) = "100000000000000000000".
Proof. split; vm_compute; reflexivity. Qed.

Example Number_toString_2_60 :
  Number_toString (Int (2 ^ 60)) = "1152921504606847000".
Proof. vm_compute. reflexivity. Qed.

Example Number_toString_2_70 :
  Number_toString (Int (- 2 ^ 70)) = "-1.1805916207174113e+21".
Proof. vm_compute. reflexivity. Qed.

Example Number_toString_1e23 : Number_toString (Int (10 ^ 23)) = "1e+23".
Proof. vm_compute. reflexivity. Qed.

Example Number_toString_overflow :
  Number_toString (Int (2 ^ 1024 - 2 ^ 971)) = "1.7976931348623157e+308"
  /\ Number_toString (Int (2 ^ 1024)) = "Infinity".
Proof. split; vm_compute; reflexivity. Qed.

Example ToString_array :
  ToString (JArr [JNum (Int 1); JNull; JStr "a"]) = Return "1,,a".
Proof. reflexivity. Qed.

Example ToString_shadowed :
  ToString (JObj [("toString", JNum (Int 1))]) = Throw TypeError.
Proof. reflexivity. Qed.

(** *** [handleError] *)

(** What [handleError] answers once the error is known to carry a truthy
    [response]: neither [error.request] nor [error.message] is read. *)
Lemma handleError_response (error response : JsVal) :
  get_prop error "response" = Return response ->
  truthy response = true ->
  handleError error =
    (body <- get_prop response "data" ;;
     field <- get_prop_opt body "message" ;;
     message <- (if truthy field then Return field
                 else status <- get_prop response "status" ;;
                      text <- ToString status ;;
                      Return (JStr ("API Error: " ++ text))) ;;
     new_Error message).
Proof. intros Hr Ht. unfold handleError. rewrite Hr. simpl. now rewrite Ht. Qed.

(** Two errors with the same truthy [response] are normalised alike,
    whatever their [request] and [message]. *)
Lemma handleError_response_first (error error' response : JsVal) :
  get_prop error "response" = Return response ->
  get_prop error' "response" = Return response ->
  truthy response = true ->
  handleError error = handleError error'.
Proof.
  intros H H' Ht.
  now rewrite (handleError_response error response H Ht),
    (handleError_response error' response H' Ht).
Qed.

Lemma handleError_status_error (r : Axios.Response.t) :
  handleError (Axios.status_error r) =
    (field <- get_prop_opt (Axios.Response.data r) "message" ;;
     if truthy field then new_Error field
     else Return (Error ("API Error: "
                          ++ Number_toString (Int (Axios.Response.status r))))).
Proof.
  rewrite (handleError_response _ (Axios.response_object r)) by reflexivity.
  cbn [Axios.response_object get_prop own String.eqb Ascii.eqb Bool.eqb cbind].
  destruct (get_prop_opt_returns (Axios.Response.data r) "message") as [field Hf].
  rewrite Hf. cbn [cbind]. destruct (truthy field); reflexivity.
Qed.

Lemma handleError_no_response (error response request : JsVal) :
  get_prop error "response" = Return response ->
  truthy response = false ->
  get_prop error "request" = Return request ->
  handleError error =
    if truthy request
    then Return (Error "Network error: Unable to reach Taxu API")
    else (message <- get_prop error "message" ;;
          text <- ToString message ;;
          Return (Error ("Request error: " ++ text))).
Proof.
  intros Hr Ht Hq. unfold handleError. rewrite Hr. cbn [cbind]. rewrite Ht, Hq.
  cbn [cbind]. destruct (truthy request); [reflexivity |].
  destruct (get_prop error "message"); [| reflexivity].
  cbn [cbind]. destruct (ToString a); reflexivity.
Qed.

(** The mock adapter of the test suite reports a connection failure and a
    timeout without a request, so both fall to the last branch. *)
Example handleError_mock_network_error :
  handleError (JObj [("message", JStr "Network Error")])
  = Return (Error "Request error: Network Error").
Proof. reflexivity. Qed.

Example handleError_mock_timeout :
  handleError (JObj [("message", JStr "timeout of 10000ms exceeded");
                     ("code", JStr "ECONNABORTED")])
  = Return (Error "Request error: timeout of 10000ms exceeded").
Proof. reflexivity. Qed.

Example handleError_undefined : handleError JUndefined = Throw TypeError.
Proof. reflexivity. Qed.

Example handleError_bare_500 :
  handleError (Axios.status_error (response_with 500 JUndefined))
  = Return (Error "API Error: 500").
Proof. reflexivity. Qed.

(** *** One request per call *)

Section Calls.

Variable adapter : Axios.AxiosRequestConfig -> Axios.AdapterResult.

Lemma try_await_request (this : TaxuClient) (config : Axios.AxiosRequestConfig) :
  exists sent,
    Axios.headers sent
      = Axios.merge_headers (Axios.headers (Axios.defaults (client this)))
          (Axios.headers config)
    /\ try_catch
         (await (Axios.request adapter (client this) config)
            (fun response => resolve (Axios.Response.data response)))
         (fun error => throw (handleError error))
       = ([sent],
          finish match adapter sent with
                 | Axios.Reply r => Axios.settle r
                 | Axios.Failure error => Rejected error
                 end).
Proof.
  unfold Axios.request.
  match goal with |- context [adapter ?c] => exists c; destruct (adapter c) as [r | e] end;
    (split; [reflexivity | unfold await, try_catch]).
  - destruct (Axios.settle r) as [r' | e]; cbn; [reflexivity |].
    destruct (handleError e); reflexivity.
  - cbn. destruct (handleError e); reflexivity.
Qed.

(** Every call of the public interface hands exactly one request to the
    adapter, with the headers of the instance, and settles from the
    adapter's answer to it. *)
Lemma invoke_run (this : TaxuClient) (c : Call) :
  exists sent,
    Axios.headers sent = Axios.headers (Axios.defaults (client this))
    /\ invoke adapter this c
       = ([sent],
          finish match adapter sent with
                 | Axios.Reply r => Axios.settle r
                 | Axios.Failure error => Rejected error
                 end).
Proof.
  assert (Hm : forall h, Axios.merge_headers h [] = h).
  { intros h. unfold Axios.merge_headers. cbn. induction h as [| kv h IH];
      [reflexivity | cbn; now rewrite IH]. }
  destruct c as [r | | | endpoint options]; cbn [invoke];
    unfold calculateTax, getJurisdictions, ping, request, Axios.post, Axios.get;
    match goal with
    | |- context [Axios.request adapter (client this) ?config] =>
        destruct (try_await_request this config) as (sent & Hh & Hrun)
    end;
    exists sent; (split; [rewrite Hh; apply Hm | exact Hrun]).
Qed.

Lemma invoke_reply (this : TaxuClient) (c : Call) (sent : Axios.AxiosRequestConfig)
    (r : Axios.Response.t) :
  In sent (history (invoke adapter this c)) ->
  adapter sent = Axios.Reply r ->
  outcome (invoke adapter this c) = finish (Axios.settle r).
Proof.
  destruct (invoke_run this c) as (sent' & _ & Hrun). rewrite Hrun. cbn.
  intros [<- | []] Ha. now rewrite Ha.
Qed.

Lemma invoke_failure (this : TaxuClient) (c : Call) (sent : Axios.AxiosRequestConfig)
    (error : JsVal) :
  In sent (history (invoke adapter this c)) ->
  adapter sent = Axios.Failure error ->
  outcome (invoke adapter this c) = outcome (@throw JsVal (handleError error)).
Proof.
  destruct (invoke_run this c) as (sent' & _ & Hrun). rewrite Hrun. cbn.
  intros [<- | []] Ha. now rewrite Ha.
Qed.

Lemma settle_rejects (r : Axios.Response.t) :
  Axios.Response.status r <> 0%Z ->
  ~ (200 <= Axios.Response.status r < 300)%Z ->
  Axios.settle r = Rejected (Axios.status_error r).
Proof.
  intros H0 H2. unfold Axios.settle, Axios.validateStatus.
  destruct (Z.eqb_spec (Axios.Response.status r) 0); [contradiction |].
  destruct (Z.leb_spec 200 (Axios.Response.status r));
    destruct (Z.ltb_spec (Axios.Response.status r) 300); try reflexivity.
  exfalso. apply H2. lia.
Qed.


End Calls.

(** *** Error normalisation and pass-through *)

Section Contract.

Variable adapter : Axios.AxiosRequestConfig -> Axios.AdapterResult.
Variable this : TaxuClient.

(** C1 (as amended).  When the server answers a call of any public method
    with a status outside 2xx, the call is rejected with an error whose
    message is the body's [message] field converted to a string when that
    field is truthy (a non-empty string is taken as it is), and
    ["API Error: <status>"] when the field is absent or falsy.  The reply's
    request object is arbitrary, so the rule applies whether or not the
    error also carries a request. *)
Theorem server_error_message (c : Call) (sent : Axios.AxiosRequestConfig)
    (r : Axios.Response.t) (field : JsVal) :
  In sent (history (invoke adapter this c)) ->
  adapter sent = Axios.Reply r ->
  Axios.Response.status r <> 0%Z ->
  ~ (200 <= Axios.Response.status r < 300)%Z ->
  get_prop_opt (Axios.Response.data r) "message" = Return field ->
  (forall m, field = JStr m -> m <> "" ->
     outcome (invoke adapter this c) = Rejected (Error m))
  /\ (forall text, truthy field = true -> ToString field = Return text ->
        outcome (invoke adapter this c) = Rejected (Error text))
  /\ (truthy field = false ->
        outcome (invoke adapter this c)
        = Rejected (Error ("API Error: " ++ Number_toString (Int (Axios.Response.status r))))).
Proof.
  intros Hin Ha H0 H2 Hf.
  rewrite (invoke_reply adapter this c sent r Hin Ha), (settle_rejects r H0 H2).
  cbn [finish]. rewrite handleError_status_error, Hf. cbn [cbind].
  assert (Hgen : forall text, truthy field = true -> ToString field = Return text ->
            outcome (@throw JsVal (if truthy field then new_Error field
                       else Return (Error ("API Error: " ++ Number_toString (Int (Axios.Response.status r))))))
            = Rejected (Error text)).
  { intros text Ht Hs. rewrite Ht, (new_Error_truthy field Ht), Hs. reflexivity. }
  repeat split.
  - intros m -> Hm. apply Hgen; [now apply truthy_string_nonempty | reflexivity].
  - exact Hgen.
  - intros Ht. rewrite Ht. reflexivity.
Qed.

(** C2.  When the adapter fails a call of any public method with an error
    that carries a request and no response, the call is rejected with the
    message ["Network error: Unable to reach Taxu API"]. *)
Theorem network_error_message (c : Call) (sent : Axios.AxiosRequestConfig)
    (error response request : JsVal) :
  In sent (history (invoke adapter this c)) ->
  adapter sent = Axios.Failure error ->
  get_prop error "response" = Return response ->
  truthy response = false ->
  get_prop error "request" = Return request ->
  truthy request = true ->
  outcome (invoke adapter this c)
  = Rejected (Error "Network error: Unable to reach Taxu API").
Proof.
  intros Hin Ha Hr Hrf Hq Hqt.
  rewrite (invoke_failure adapter this c sent error Hin Ha).
  rewrite (handleError_no_response error response request Hr Hrf Hq), Hqt.
  reflexivity.
Qed.

(** C3.  When the adapter fails a call of any public method with an error
    that carries neither a response nor a request and whose message is [X],
    the call is rejected with the message ["Request error: X"]. *)
Theorem request_error_message (c : Call) (sent : Axios.AxiosRequestConfig)
    (error response request : JsVal) (X : string) :
  In sent (history (invoke adapter this c)) ->
  adapter sent = Axios.Failure error ->
  get_prop error "response" = Return response ->
  truthy response = false ->
  get_prop error "request" = Return request ->
  truthy request = false ->
  get_prop error "message" = Return (JStr X) ->
  outcome (invoke adapter this c) = Rejected (Error ("Request error: " ++ X)).
Proof.
  intros Hin Ha Hr Hrf Hq Hqf Hm.
  rewrite (invoke_failure adapter this c sent error Hin Ha).
  rewrite (handleError_no_response error response request Hr Hrf Hq), Hqf, Hm.
  reflexivity.
Qed.


(** C7.  Each named method is the generic [request] at a fixed endpoint:
    the same request reaches the adapter and the call settles the same
    way, on success and on failure. *)
Theorem named_methods_are_requests :
  (forall r : JsVal,
      calculateTax adapter this r
      = request adapter this "/tax/calculate"
          (Some {| method := Some POST; data := r; params := JUndefined |}))
  /\ getJurisdictions adapter this = request adapter this "/jurisdictions" None
  /\ ping adapter this = request adapter this "/ping" None.
Proof. repeat split. Qed.

(** C10.  When the body of a reply outside 2xx has a [message] field that
    is the empty string, [null], [0] or [false], the call is rejected with
    ["API Error: <status>"], not with that field. *)
Theorem falsy_message_field_fallback (c : Call) (sent : Axios.AxiosRequestConfig)
    (r : Axios.Response.t) (fields : list (string * JsVal)) (field : JsVal) :
  In sent (history (invoke adapter this c)) ->
  adapter sent = Axios.Reply r ->
  Axios.Response.status r <> 0%Z ->
  ~ (200 <= Axios.Response.status r < 300)%Z ->
  Axios.Response.data r = JObj fields ->
  own "message" fields = Some field ->
  In field [JStr ""; JNull; JNum (Int 0); JBool false] ->
  outcome (invoke adapter this c)
  = Rejected (Error ("API Error: " ++ Number_toString (Int (Axios.Response.status r)))).
Proof.
  intros Hin Ha H0 H2 Hd Ho Hfalsy.
  rewrite (invoke_reply adapter this c sent r Hin Ha), (settle_rejects r H0 H2).
  cbn [finish]. rewrite handleError_status_error, Hd.
  rewrite (get_prop_opt_own fields "message" field Ho). cbn [cbind].
  assert (Ht : truthy field = false).
  { cbn [In] in Hfalsy.
    destruct Hfalsy as [<- | [<- | [<- | [<- | []]]]]; reflexivity. }
  rewrite Ht. reflexivity.
Qed.

End Contract.

(** C8.  The constructor makes the bearer authorization header built from
    the credential, the JSON content type and the client identifier default
    headers of the transport, next to the package's own.  The one request
    every call of the public interface hands to the adapter carries the
    headers of the instance and no other, so these three with these values,
    whatever the method and its arguments. *)
Theorem default_headers_on_every_request
    (adapter : Axios.AxiosRequestConfig -> Axios.AdapterResult)
    (config : Config.TaxuConfig) (c : Call) :
  (header "Authorization" (Axios.defaults (client (constructor config)))
   = Some ("Bearer " ++ Config.apiKey config)
   /\ header "Content-Type" (Axios.defaults (client (constructor config)))
      = Some "application/json"
   /\ header "User-Agent" (Axios.defaults (client (constructor config)))
      = Some "taxu-js/0.1.0")
  /\ exists sent,
       history (invoke adapter (constructor config) c) = [sent]
       /\ Axios.headers sent
          = Axios.headers (Axios.defaults (client (constructor config)))
       /\ header "Authorization" sent = Some ("Bearer " ++ Config.apiKey config)
       /\ header "Content-Type" sent = Some "application/json"
       /\ header "User-Agent" sent = Some "taxu-js/0.1.0".
Proof.
  split; [repeat split |].
  destruct (invoke_run adapter (constructor config) c) as (sent & Hh & Hrun).
  exists sent. rewrite Hrun. unfold header. rewrite Hh.
  repeat split.
Qed.

(** *** Construction *)


(** C6 (as amended).  The base address is ["https://api.taxu.io/v1"] and
    the timeout 10000 when the field is omitted; a supplied base address
    that is not the empty string, and a supplied timeout that is neither 0
    nor NaN, is used as it is. *)
Theorem constructor_defaults_and_overrides (config : Config.TaxuConfig) :
  (Config.baseURL config = None ->
     Axios.baseURL (Axios.defaults (client (constructor config)))
     = Some "https://api.taxu.io/v1")
  /\ (Config.timeout config = None ->
        Axios.timeout (Axios.defaults (client (constructor config)))
        = Some (Int 10000))
  /\ (forall u, Config.baseURL config = Some u -> u <> "" ->
        Axios.baseURL (Axios.defaults (client (constructor config))) = Some u)
  /\ (forall n, Config.timeout config = Some n -> n <> Int 0 -> n <> NaN ->
        Axios.timeout (Axios.defaults (client (constructor config))) = Some n).
Proof.
  destruct config as [key base time]. cbn.
  repeat split.
  - now intros ->.
  - now intros ->.
  - intros u -> Hu. cbn. destruct u; [now elim Hu | reflexivity].
  - intros n -> H0 Hn. cbn. now rewrite (truthy_Number_spec n H0 Hn).
Qed.

(** C9.  A supplied timeout of 0 gives the client the timeout 10000, and a
    supplied empty base address gives it ["https://api.taxu.io/v1"]. *)
Theorem constructor_falsy_override_replaced
    (key : string) (base : option string) (time : option Number) :
  Axios.timeout
    (Axios.defaults
       (client (constructor {| Config.apiKey := key; Config.baseURL := base;
                               Config.timeout := Some (Int 0) |})))
  = Some (Int 10000)
  /\ Axios.baseURL
       (Axios.defaults
          (client (constructor {| Config.apiKey := key; Config.baseURL := Some "";
                                  Config.timeout := time |})))
     = Some "https://api.taxu.io/v1".
Proof. split; reflexivity. Qed.

(** *** The properties at sample inputs *)

(** [request] with [POST], a body and query parameters: both reach the
    adapter, next to the settings of the instance. *)
Example request_post_data_and_params :
  history (request (always_reply 201 (JObj [("success", JBool true)]))
             sample_client "/create-resource"
             (Some {| method := Some POST;
                      data := JObj [("name", JStr "Test Resource")];
                      params := JObj [("include", JStr "metadata")] |}))
  = [{| Axios.url := Some "/create-resource";
        Axios.method := Some "post";
        Axios.baseURL := Some "https://api.taxu.io/v1";
        Axios.headers := [("Authorization", "Bearer test-api-key-123");
                          ("Content-Type", "application/json");
                          ("User-Agent", "taxu-js/0.1.0");
                          ("Accept", "application/json, text/plain, */*")];
        Axios.params := JObj [("include", JStr "metadata")];
        Axios.data := JObj [("name", JStr "Test Resource")];
        Axios.timeout := Some (Int 10000) |}].
Proof. reflexivity. Qed.

(** A numeric [message] of 10^21 reaches the caller in exponent form. *)
Example server_error_message_1e21 :
  outcome (ping (always_reply 400 (JObj [("message", JNum (Int (10 ^ 21)))]))
             sample_client)
  = Rejected (Error "1e+21").
Proof. vm_compute. reflexivity. Qed.

(** Called without an argument, [createTaxuClient] throws. *)
Example createTaxuClient_call_undefined :
  createTaxuClient_call None = Throw TypeError.
Proof. reflexivity. Qed.

(** C1 as first stated fails: a 400 reply whose body has the [message]
    field [""] is rejected with ["API Error: 400"], not with the field. *)
Lemma server_error_empty_message_field :
  get_prop empty_message_body "message" = Return (JStr "")
  /\ outcome (request (always_reply 400 empty_message_body) sample_client
                "/invalid-endpoint" None)
     = Rejected (Error "API Error: 400")
  /\ outcome (request (always_reply 400 empty_message_body) sample_client
                "/invalid-endpoint" None)
     <> Rejected (Error "").
Proof. repeat split. discriminate. Qed.

Lemma server_error_message_witness :
  outcome (request (always_reply 400 invalid_params_body) sample_client
             "/invalid-endpoint" None)
  = Rejected (Error "Invalid request parameters").
Proof.
  refine (proj1 (server_error_message (always_reply 400 invalid_params_body)
                   sample_client (Request "/invalid-endpoint" None)
                   _ _ (JStr "Invalid request parameters") _ _ _ _ _)
            _ eq_refl _).
  - left; reflexivity.
  - reflexivity.
  - discriminate.
  - cbn; lia.
  - reflexivity.
  - discriminate.
Defined.

Lemma network_error_message_witness :
  outcome (ping (always_fail unreachable_error) sample_client)
  = Rejected (Error "Network error: Unable to reach Taxu API").
Proof.
  refine (network_error_message (always_fail unreachable_error) sample_client
            Ping _ unreachable_error JUndefined (JObj [("path", JStr "/")])
            _ _ _ _ _ _).
  - left; reflexivity.
  - reflexivity.
  - reflexivity.
  - reflexivity.
  - reflexivity.
  - reflexivity.
Defined.

Lemma request_error_message_witness :
  outcome (request (always_fail setup_error) sample_client "/request-error" None)
  = Rejected (Error "Request error: Custom request error").
Proof.
  refine (request_error_message (always_fail setup_error) sample_client
            (Request "/request-error" None) _ setup_error JUndefined JUndefined
            "Custom request error" _ _ _ _ _ _ _).
  - left; reflexivity.
  - reflexivity.
  - reflexivity.
  - reflexivity.
  - reflexivity.
  - reflexivity.
  - reflexivity.
Defined.


Lemma falsy_message_field_fallback_witness :
  outcome (calculateTax (always_reply 422 (JObj [("message", JNull)]))
             sample_client (JObj [("amount", JNum (Int 100))]))
  = Rejected (Error "API Error: 422").
Proof.
  refine (falsy_message_field_fallback
            (always_reply 422 (JObj [("message", JNull)])) sample_client
            (CalculateTax (JObj [("amount", JNum (Int 100))]))
            _ (response_with 422 (JObj [("message", JNull)]))
            [("message", JNull)] JNull _ _ _ _ _ _ _).
  - left; reflexivity.
  - reflexivity.
  - discriminate.
  - cbn; lia.
  - reflexivity.
  - reflexivity.
  - right; left; reflexivity.
Defined.


(** C6 as first stated fails: a supplied timeout of 0 is not the one the
    client uses. *)
Lemma constructor_zero_timeout_not_used :
  Config.timeout zero_timeout_config = Some (Int 0)
  /\ Axios.timeout (Axios.defaults (client (constructor zero_timeout_config)))
     = Some (Int 10000)
  /\ Axios.timeout (Axios.defaults (client (constructor zero_timeout_config)))
     <> Config.timeout zero_timeout_config.
Proof. repeat split. discriminate. Qed.

Lemma constructor_defaults_and_overrides_witness :
  Axios.baseURL (Axios.defaults (client (constructor custom_config)))
  = Some "https://custom.api.taxu.io/v2"
  /\ Axios.timeout (Axios.defaults (client (constructor custom_config)))
     = Some (Int 15000).
Proof.
  destruct (constructor_defaults_and_overrides custom_config)
    as (_ & _ & Hbase & Htime).
  split.
  - apply Hbase; [reflexivity | discriminate].
  - apply Htime; [reflexivity | discriminate | discriminate].
Defined.

(** ** Further properties of the client *)

(** *** What a call sends *)

Lemma try_await_history {A} (p : Axios.Promise JsVal A) (f : A -> JsVal)
    (g : JsVal -> Completion JsError) :
  history (try_catch (await p (fun a => resolve (f a))) (fun e => throw (g e)))
  = history p.
Proof.
  destruct p as [h [a | e]]; cbn.
  - now rewrite app_nil_r.
  - destruct (g e); cbn; now rewrite app_nil_r.
Qed.

Lemma server_error_outcome
    (adapter : Axios.AxiosRequestConfig -> Axios.AdapterResult)
    (this : TaxuClient) (c : Call) (sent : Axios.AxiosRequestConfig)
    (r : Axios.Response.t) (field : JsVal) :
  In sent (history (invoke adapter this c)) ->
  adapter sent = Axios.Reply r ->
  Axios.Response.status r <> 0%Z ->
  ~ (200 <= Axios.Response.status r < 300)%Z ->
  get_prop_opt (Axios.Response.data r) "message" = Return field ->
  outcome (invoke adapter this c)
  = outcome (@throw JsVal
               (if truthy field then new_Error field
                else Return (Error ("API Error: "
                       ++ Number_toString (Int (Axios.Response.status r)))))).
Proof.
  intros Hin Ha H0 H2 Hf.
  rewrite (invoke_reply adapter this c sent r Hin Ha), (settle_rejects r H0 H2).
  cbn [finish]. now rewrite handleError_status_error, Hf.
Qed.

Lemma decimal_nonempty (z : Z) : decimal z <> "".
Proof.
  unfold decimal. destruct (Z.to_int z) as [d | d]; cbn.
  - destruct d; discriminate.
  - discriminate.
Qed.

Lemma format_nonempty (w : Z) : format w <> "".
Proof.
  unfold format.
  destruct (String.length (decimal w) <=? 21)%nat; [apply decimal_nonempty |].
  destruct (decimal (strip_zeros (String.length (decimal w)) w)) as [| c [| c' more]];
    [apply decimal_nonempty | discriminate | discriminate].
Qed.

Lemma magnitude_toString_nonempty (a : Z) : magnitude_toString a <> "".
Proof.
  unfold magnitude_toString.
  destruct (a <=? 2 ^ 53)%Z; [apply decimal_nonempty |].
  destruct (nearest_double a); [apply format_nonempty | discriminate].
Qed.

Lemma Number_toString_nonempty (n : Number) : Number_toString n <> "".
Proof.
  destruct n as [z |]; [| discriminate].
  unfold Number_toString. destruct (z <? 0)%Z;
    [discriminate | apply magnitude_toString_nonempty].
Qed.

(** Up to 2^53 in magnitude an integer prints as its decimal digits. *)
Lemma Number_toString_safe (z : Z) :
  (Z.abs z <= 2 ^ 53)%Z -> Number_toString (Int z) = decimal z.
Proof.
  intros Hz. unfold Number_toString, magnitude_toString.
  destruct (Z.ltb_spec z 0) as [Hneg | Hpos].
  - destruct (Z.leb_spec (- z) (2 ^ 53)) as [_ | Hbig]; [| lia].
    unfold decimal. destruct z as [| p | p]; try lia. reflexivity.
  - destruct (Z.leb_spec z (2 ^ 53)) as [_ | Hbig]; [reflexivity | lia].
Qed.

(** X1.  Every call of the public interface hands exactly one request to
    the adapter, on success and on failure alike (nothing is retried), and
    which request that is does not depend on how the adapter answers. *)
Theorem one_request_per_call
    (adapter adapter' : Axios.AxiosRequestConfig -> Axios.AdapterResult)
    (this : TaxuClient) (c : Call) :
  List.length (history (invoke adapter this c)) = 1%nat
  /\ history (invoke adapter this c) = history (invoke adapter' this c).
Proof.
  destruct c as [r | | | endpoint options]; cbn [invoke];
    unfold calculateTax, getJurisdictions, ping, request;
    rewrite !try_await_history; split; reflexivity.
Qed.

(** X2.  [request] on a client made by the constructor sends the endpoint
    as the URL, the method in lower case ([get] when none is given), and
    [data] and [params] each as given, independently of each other. *)
Theorem request_passes_arguments
    (adapter : Axios.AxiosRequestConfig -> Axios.AdapterResult)
    (config : Config.TaxuConfig) (endpoint : string) (opts : RequestOptions) :
  exists sent,
    history (request adapter (constructor config) endpoint (Some opts)) = [sent]
    /\ Axios.url sent = Some endpoint
    /\ Axios.method sent
       = Some (toLowerCase (Method_text (match method opts with
                                         | Some m => m
                                         | None => GET
                                         end)))
    /\ Axios.data sent = data opts
    /\ Axios.params sent = params opts.
Proof.
  unfold request. rewrite try_await_history. eexists. split; [reflexivity |].
  cbn. repeat split.
  - destruct (method opts) as [[] |]; reflexivity.
  - destruct (params opts); reflexivity.
Qed.

(** X4.  The request of every call carries the base address and the
    timeout of the client's transport instance: no method and no argument
    of the public interface changes them. *)
Theorem instance_settings_on_every_request
    (adapter : Axios.AxiosRequestConfig -> Axios.AdapterResult)
    (this : TaxuClient) (c : Call) :
  exists sent,
    history (invoke adapter this c) = [sent]
    /\ Axios.baseURL sent = Axios.baseURL (Axios.defaults (client this))
    /\ Axios.timeout sent = Axios.timeout (Axios.defaults (client this)).
Proof.
  destruct c as [r | | | endpoint options]; cbn [invoke];
    unfold calculateTax, getJurisdictions, ping, request;
    rewrite try_await_history; eexists; (split; [reflexivity |]);
    split; reflexivity.
Qed.

(** X5.  On a client made by the constructor, [calculateTax] posts its
    argument, unchanged, to [/tax/calculate] with no query parameters, and
    [getJurisdictions] and [ping] send a [get] without body or query
    parameters to [/jurisdictions] and [/ping]. *)
Theorem named_method_requests
    (adapter : Axios.AxiosRequestConfig -> Axios.AdapterResult)
    (config : Config.TaxuConfig) (body : JsVal) :
  (exists sent,
      history (calculateTax adapter (constructor config) body) = [sent]
      /\ Axios.url sent = Some "/tax/calculate"
      /\ Axios.method sent = Some "post"
      /\ Axios.data sent = body
      /\ Axios.params sent = JUndefined)
  /\ (exists sent,
        history (getJurisdictions adapter (constructor config)) = [sent]
        /\ Axios.url sent = Some "/jurisdictions"
        /\ Axios.method sent = Some "get"
        /\ Axios.data sent = JUndefined
        /\ Axios.params sent = JUndefined)
  /\ (exists sent,
        history (ping adapter (constructor config)) = [sent]
        /\ Axios.url sent = Some "/ping"
        /\ Axios.method sent = Some "get"
        /\ Axios.data sent = JUndefined
        /\ Axios.params sent = JUndefined).
Proof.
  unfold calculateTax, getJurisdictions, ping.
  rewrite !try_await_history.
  repeat split; eexists; (split; [reflexivity |]); repeat split.
Qed.

(** *** How a call settles *)

(** X6.  A call is fulfilled only from a reply the transport accepts: if
    a call of any public method is fulfilled with [v], the adapter replied
    to its request with a 2xx status (or with none) and [v] is that
    reply's body.  A failure or another status never yields a result. *)
Theorem fulfilled_only_on_accepted_reply
    (adapter : Axios.AxiosRequestConfig -> Axios.AdapterResult)
    (this : TaxuClient) (c : Call) (v : JsVal) :
  outcome (invoke adapter this c) = Fulfilled v ->
  exists sent r,
    history (invoke adapter this c) = [sent]
    /\ adapter sent = Axios.Reply r
    /\ (Axios.Response.status r = 0 \/ 200 <= Axios.Response.status r < 300)%Z
    /\ v = Axios.Response.data r.
Proof.
  destruct (invoke_run adapter this c) as (sent & _ & Hrun). rewrite Hrun.
  cbn [outcome history fst snd].
  destruct (adapter sent) as [r | e] eqn:Ha.
  - unfold Axios.settle, Axios.validateStatus.
    destruct (Z.eqb_spec (Axios.Response.status r) 0) as [H0 | H0]; cbn [orb finish].
    + intros [= <-]. exists sent, r; auto.
    + destruct (Z.leb_spec 200 (Axios.Response.status r));
        destruct (Z.ltb_spec (Axios.Response.status r) 300); cbn [andb finish];
        try (destruct (handleError (Axios.status_error r)); discriminate).
      intros [= <-]. exists sent, r; repeat split; auto; right; lia.
  - cbn [finish]. destruct (handleError e); discriminate.
Qed.

(** X7.  When the adapter fails with [undefined] or [null], the error
    handler's first property read throws: the call is rejected with a
    [TypeError], not with a normalised error. *)
Theorem nullish_failure_rejects_TypeError
    (adapter : Axios.AxiosRequestConfig -> Axios.AdapterResult)
    (this : TaxuClient) (c : Call) (sent : Axios.AxiosRequestConfig)
    (error : JsVal) :
  In sent (history (invoke adapter this c)) ->
  adapter sent = Axios.Failure error ->
  error = JUndefined \/ error = JNull ->
  outcome (invoke adapter this c) = Rejected TypeError.
Proof.
  intros Hin Ha Hn.
  rewrite (invoke_failure adapter this c sent error Hin Ha).
  destruct Hn as [-> | ->]; reflexivity.
Qed.

(** X8.  When the adapter fails with a value that has no [response], no
    [request] and no [message] (a thrown string, number or boolean, or an
    object without these fields), the call is rejected with the message
    ["Request error: undefined"]: the text of a thrown string is lost. *)
Theorem failure_without_message
    (adapter : Axios.AxiosRequestConfig -> Axios.AdapterResult)
    (this : TaxuClient) (c : Call) (sent : Axios.AxiosRequestConfig)
    (error : JsVal) :
  In sent (history (invoke adapter this c)) ->
  adapter sent = Axios.Failure error ->
  get_prop error "response" = Return JUndefined ->
  get_prop error "request" = Return JUndefined ->
  get_prop error "message" = Return JUndefined ->
  outcome (invoke adapter this c) = Rejected (Error "Request error: undefined").
Proof.
  intros Hin Ha Hr Hq Hm.
  rewrite (invoke_failure adapter this c sent error Hin Ha).
  rewrite (handleError_no_response error JUndefined JUndefined Hr eq_refl Hq).
  cbn [truthy Truthy_JsVal]. rewrite Hm. reflexivity.
Qed.

(** X9.  When the body of a reply outside 2xx is not an object (no body at
    all, [null], a text such as an HTML error page, a number, a boolean, an
    array), the call is rejected with ["API Error: <status>"]. *)
Theorem non_object_body_fallback
    (adapter : Axios.AxiosRequestConfig -> Axios.AdapterResult)
    (this : TaxuClient) (c : Call) (sent : Axios.AxiosRequestConfig)
    (r : Axios.Response.t) :
  In sent (history (invoke adapter this c)) ->
  adapter sent = Axios.Reply r ->
  Axios.Response.status r <> 0%Z ->
  ~ (200 <= Axios.Response.status r < 300)%Z ->
  (forall fields, Axios.Response.data r <> JObj fields) ->
  outcome (invoke adapter this c)
  = Rejected (Error ("API Error: "
                      ++ Number_toString (Int (Axios.Response.status r)))).
Proof.
  intros Hin Ha H0 H2 Hno.
  assert (Hf : get_prop_opt (Axios.Response.data r) "message" = Return JUndefined).
  { destruct (Axios.Response.data r) as [| | b | n | s | items | fields];
      try reflexivity. now elim (Hno fields). }
  now rewrite (server_error_outcome adapter this c sent r JUndefined Hin Ha H0 H2 Hf).
Qed.

(** X10.  A truthy [message] field that is not a string is used in its
    string conversion: an integer other than 0 and up to 2^53 in magnitude
    gives its decimal digits, [true] gives ["true"], and an object without
    a [toString] property of its own gives ["[object Object]"]. *)
Theorem truthy_message_field_stringified
    (adapter : Axios.AxiosRequestConfig -> Axios.AdapterResult)
    (this : TaxuClient) (c : Call) (sent : Axios.AxiosRequestConfig)
    (r : Axios.Response.t) (fields : list (string * JsVal)) (field : JsVal) :
  In sent (history (invoke adapter this c)) ->
  adapter sent = Axios.Reply r ->
  Axios.Response.status r <> 0%Z ->
  ~ (200 <= Axios.Response.status r < 300)%Z ->
  Axios.Response.data r = JObj fields ->
  own "message" fields = Some field ->
  (forall n, field = JNum (Int n) -> n <> 0%Z -> (Z.abs n <= 2 ^ 53)%Z ->
     outcome (invoke adapter this c) = Rejected (Error (decimal n)))
  /\ (field = JBool true ->
        outcome (invoke adapter this c) = Rejected (Error "true"))
  /\ (forall inner, field = JObj inner -> own "toString" inner = None ->
        outcome (invoke adapter this c) = Rejected (Error "[object Object]")).
Proof.
  intros Hin Ha H0 H2 Hd Ho.
  assert (Hf : get_prop_opt (Axios.Response.data r) "message" = Return field).
  { rewrite Hd. now apply get_prop_opt_own. }
  rewrite (server_error_outcome adapter this c sent r field Hin Ha H0 H2 Hf).
  repeat split.
  - intros n -> Hn Hsafe. cbn [truthy Truthy_JsVal Truthy_Number].
    destruct (Z.eqb_spec n 0); [contradiction |].
    cbn [negb new_Error ToString cbind]. now rewrite (Number_toString_safe n Hsafe).
  - intros ->. reflexivity.
  - intros inner -> Hts. cbn. now rewrite Hts.
Qed.

(** X11.  When the [message] field of a reply outside 2xx is an object
    with a [toString] property of its own, building the error fails: the
    call is rejected with a [TypeError]. *)
Theorem shadowed_toString_rejects_TypeError
    (adapter : Axios.AxiosRequestConfig -> Axios.AdapterResult)
    (this : TaxuClient) (c : Call) (sent : Axios.AxiosRequestConfig)
    (r : Axios.Response.t) (fields inner : list (string * JsVal)) (x : JsVal) :
  In sent (history (invoke adapter this c)) ->
  adapter sent = Axios.Reply r ->
  Axios.Response.status r <> 0%Z ->
  ~ (200 <= Axios.Response.status r < 300)%Z ->
  Axios.Response.data r = JObj fields ->
  own "message" fields = Some (JObj inner) ->
  own "toString" inner = Some x ->
  outcome (invoke adapter this c) = Rejected TypeError.
Proof.
  intros Hin Ha H0 H2 Hd Ho Hts.
  assert (Hf : get_prop_opt (Axios.Response.data r) "message" = Return (JObj inner)).
  { rewrite Hd. now apply get_prop_opt_own. }
  rewrite (server_error_outcome adapter this c sent r (JObj inner) Hin Ha H0 H2 Hf).
  cbn. now rewrite Hts.
Qed.

(** X12.  When the [message] field of a reply outside 2xx is absent or a
    scalar, the call is rejected with a normalised error, never a
    [TypeError], and its message is not empty. *)
Theorem scalar_message_normalised
    (adapter : Axios.AxiosRequestConfig -> Axios.AdapterResult)
    (this : TaxuClient) (c : Call) (sent : Axios.AxiosRequestConfig)
    (r : Axios.Response.t) (field : JsVal) :
  In sent (history (invoke adapter this c)) ->
  adapter sent = Axios.Reply r ->
  Axios.Response.status r <> 0%Z ->
  ~ (200 <= Axios.Response.status r < 300)%Z ->
  get_prop_opt (Axios.Response.data r) "message" = Return field ->
  is_scalar field = true ->
  exists m, outcome (invoke adapter this c) = Rejected (Error m) /\ m <> "".
Proof.
  intros Hin Ha H0 H2 Hf Hs.
  rewrite (server_error_outcome adapter this c sent r field Hin Ha H0 H2 Hf).
  destruct field as [| | [] | n | s | items | inner]; try discriminate Hs; cbn;
    try (eexists; split; [reflexivity | discriminate]).
  - destruct n as [z |]; cbn; [destruct (z =? 0)%Z; cbn |];
      eexists; (split; [reflexivity |]);
      try discriminate; exact (Number_toString_nonempty (Int z)).
  - destruct s; cbn; eexists; (split; [reflexivity | discriminate]).
Qed.

(** X13.  The credential reaches the transport through the headers only:
    two clients that differ in the credential alone send, for the same
    call, requests with the same URL, method, base address, query
    parameters, body and timeout. *)
Theorem credential_only_in_headers
    (adapter : Axios.AxiosRequestConfig -> Axios.AdapterResult)
    (key key' : string) (base : option string) (time : option Number) (c : Call) :
  exists sent sent',
    history (invoke adapter
               (constructor {| Config.apiKey := key; Config.baseURL := base;
                               Config.timeout := time |}) c) = [sent]
    /\ history (invoke adapter
                  (constructor {| Config.apiKey := key'; Config.baseURL := base;
                                  Config.timeout := time |}) c) = [sent']
    /\ Axios.url sent = Axios.url sent'
    /\ Axios.method sent = Axios.method sent'
    /\ Axios.baseURL sent = Axios.baseURL sent'
    /\ Axios.params sent = Axios.params sent'
    /\ Axios.data sent = Axios.data sent'
    /\ Axios.timeout sent = Axios.timeout sent'.
Proof.
  destruct c as [r | | | endpoint options]; cbn [invoke];
    unfold calculateTax, getJurisdictions, ping, request;
    rewrite !try_await_history; do 2 eexists;
    (split; [reflexivity |]); (split; [reflexivity |]); repeat split.
Qed.

(** *** The further properties at sample inputs *)

Lemma fulfilled_only_on_accepted_reply_witness :
  exists sent r,
    history (invoke (always_reply 200 jurisdictions_body) sample_client
               GetJurisdictions) = [sent]
    /\ always_reply 200 jurisdictions_body sent = Axios.Reply r
    /\ (Axios.Response.status r = 0 \/ 200 <= Axios.Response.status r < 300)%Z
    /\ jurisdictions_body = Axios.Response.data r.
Proof.
  apply (fulfilled_only_on_accepted_reply (always_reply 200 jurisdictions_body)
           sample_client GetJurisdictions jurisdictions_body).
  reflexivity.
Defined.

Lemma nullish_failure_rejects_TypeError_witness :
  outcome (ping (always_fail JUndefined) sample_client) = Rejected TypeError.
Proof.
  refine (nullish_failure_rejects_TypeError (always_fail JUndefined) sample_client
            Ping _ JUndefined _ _ _).
  - left; reflexivity.
  - reflexivity.
  - left; reflexivity.
Defined.

Lemma failure_without_message_witness :
  outcome (request (always_fail (JStr "boom")) sample_client "/request-error" None)
  = Rejected (Error "Request error: undefined").
Proof.
  refine (failure_without_message (always_fail (JStr "boom")) sample_client
            (Request "/request-error" None) _ (JStr "boom") _ _ _ _ _).
  - left; reflexivity.
  - reflexivity.
  - reflexivity.
  - reflexivity.
  - reflexivity.
Defined.

Lemma non_object_body_fallback_witness :
  outcome (ping (always_reply 502 (JStr "<html>Bad Gateway</html>")) sample_client)
  = Rejected (Error "API Error: 502").
Proof.
  refine (non_object_body_fallback
            (always_reply 502 (JStr "<html>Bad Gateway</html>")) sample_client
            Ping _ (response_with 502 (JStr "<html>Bad Gateway</html>")) _ _ _ _ _).
  - left; reflexivity.
  - reflexivity.
  - discriminate.
  - cbn; lia.
  - intros fields; discriminate.
Defined.

Lemma truthy_message_field_stringified_witness :
  outcome (ping (always_reply 404 (JObj [("message", JNum (Int 42))])) sample_client)
  = Rejected (Error "42").
Proof.
  refine (proj1 (truthy_message_field_stringified
                   (always_reply 404 (JObj [("message", JNum (Int 42))]))
                   sample_client Ping _
                   (response_with 404 (JObj [("message", JNum (Int 42))]))
                   [("message", JNum (Int 42))] (JNum (Int 42)) _ _ _ _ _ _)
            42%Z eq_refl _ _).
  - left; reflexivity.
  - reflexivity.
  - discriminate.
  - cbn; lia.
  - reflexivity.
  - reflexivity.
  - discriminate.
  - cbn; lia.
Defined.

Lemma shadowed_toString_rejects_TypeError_witness :
  outcome (ping (always_reply 400
                   (JObj [("message", JObj [("toString", JNum (Int 1))])]))
             sample_client)
  = Rejected TypeError.
Proof.
  refine (shadowed_toString_rejects_TypeError
            (always_reply 400
               (JObj [("message", JObj [("toString", JNum (Int 1))])]))
            sample_client Ping _
            (response_with 400
               (JObj [("message", JObj [("toString", JNum (Int 1))])]))
            [("message", JObj [("toString", JNum (Int 1))])]
            [("toString", JNum (Int 1))] (JNum (Int 1)) _ _ _ _ _ _ _).
  - left; reflexivity.
  - reflexivity.
  - discriminate.
  - cbn; lia.
  - reflexivity.
  - reflexivity.
  - reflexivity.
Defined.

Lemma scalar_message_normalised_witness :
  exists m,
    outcome (invoke (always_reply 400 invalid_params_body) sample_client Ping)
    = Rejected (Error m)
    /\ m <> "".
Proof.
  refine (scalar_message_normalised (always_reply 400 invalid_params_body)
            sample_client Ping _ (response_with 400 invalid_params_body)
            (JStr "Invalid request parameters") _ _ _ _ _ _).
  - left; reflexivity.
  - reflexivity.
  - discriminate.
  - cbn; lia.
  - reflexivity.
  - reflexivity.
Defined.
